(** * Tenant propagation over gRPC metadata (package [tenant]) and the
      [splitAtIndex] helper of the [zoekt] command.

    Shallow embedding of [internal/tenant/grpc.go] and of [splitAtIndex]
    from [cmd/zoekt/main.go].  Go's [int] is taken at its 64-bit width and
    modelled as [Z]; Go strings are byte strings and modelled as [string];
    [metadata.MD] ([map[string][]string]) is a [gmap string (list string)]. *)

From Stdlib Require Import ZArith Ascii String List Lia.
From stdpp Require Import base option strings gmap.

Local Open Scope Z_scope.

(** ** Package [strconv] (Go standard library): [Itoa] *)

Module strconv.

(** [byte('0' + d)] for a digit [d]. *)
Definition digitChar (d : Z) : ascii := ascii_of_nat (48 + Z.to_nat d).

(** The digit loop of [formatBits] for base 10: digits are produced from
    the least significant one and written in front of what is already
    there.  [fuel] bounds the number of iterations of the [for u >= 10]
    loop. *)
Fixpoint formatBits (fuel : nat) (u : Z) (acc : string) : string :=
  if u <? 10 then String (digitChar u) acc
  else
    match fuel with
    | O => String (digitChar (u mod 10)) acc
    | S fuel' => formatBits fuel' (u / 10) (String (digitChar (u mod 10)) acc)
    end.

(** Iterations granted to the loop for [u]: the binary length of [u]
    bounds its decimal length. *)
Definition fuelFor (u : Z) : nat := Z.to_nat (Z.log2 u).

(** [fuel] iterations are enough for [u]. *)
Definition enough (fuel : nat) (u : Z) : Prop := u < 10 ^ (Z.of_nat fuel + 1).

Definition formatDecimal (u : Z) : string := formatBits (fuelFor u) u "".

(** [strconv.Itoa(i)], that is [FormatInt(int64(i), 10)]. *)
Definition Itoa (i : Z) : string :=
  if i <? 0 then String "-" (formatDecimal (- i)) else formatDecimal i.

End strconv.

(** ** Package [strings] (Go standard library): [ToLower] *)

Module strings.

Definition lowerByte (c : ascii) : ascii :=
  let n := nat_of_ascii c in
  if ((65 <=? n) && (n <=? 90))%nat then ascii_of_nat (n + 32) else c.

(** [strings.ToLower] on the bytes of an ASCII string: ['A'..'Z'] are
    mapped to ['a'..'z'], every other byte is kept.  The only string it
    is applied to in this package is the constant header key, which is
    ASCII. *)
Fixpoint ToLower (s : string) : string :=
  match s with
  | EmptyString => EmptyString
  | String c s' => String (lowerByte c) (ToLower s')
  end.

End strings.

(** ** Package [google.golang.org/grpc/metadata] *)

Module metadata.

(** [type MD map[string][]string] *)
Abbreviation MD := (gmap string (list string)).

(** [make(metadata.MD)] *)
Definition make : MD := ∅.

(** [md.Get(k)]: the values stored under the lower-cased key; a missing
    key reads as the nil slice. *)
Definition Get (md : MD) (k : string) : list string :=
  default [] (md !! strings.ToLower k).

(** [md.Append(k, vals...)]: nothing happens without values, otherwise
    they are appended to the values under the lower-cased key. *)
Definition Append (md : MD) (k : string) (vals : list string) : MD :=
  match vals with
  | [] => md
  | _ => let k' := strings.ToLower k in
         <[k' := default [] (md !! k') ++ vals]> md
  end.

End metadata.

(** ** Package [google.golang.org/grpc/codes] *)

Module codes.

Inductive Code :=
| OK | Canceled | Unknown | InvalidArgument | DeadlineExceeded | NotFound
| AlreadyExists | PermissionDenied | ResourceExhausted | FailedPrecondition
| Aborted | OutOfRange | Unimplemented | Internal | Unavailable | DataLoss
| Unauthenticated.

Definition isOK (c : Code) : bool :=
  match c with OK => true | _ => false end.

End codes.

(** ** Errors

    Go's [error] values that occur in this package: the two conditions of
    the tenant store, the wrapper built by [fmt.Errorf] with [%w], and the
    error of a gRPC status. *)

Module status_type.
(** [status.Status]: a code and a message. *)
Record Status := mkStatus { Code : codes.Code; Message : string }.
End status_type.

Inductive error :=
| ErrNoTenant
| ErrInvalidTenantValue (raw : string)
| wrapError (msg : string) (err : error)
| statusError (s : status_type.Status).

(** Go's multiple results [(T, error)] of a function that returns either a
    value or an error. *)
Inductive result (A : Type) :=
| Ok (a : A)
| Err (e : error).
Arguments Ok {A} a.
Arguments Err {A} e.

(** [err.Error()].  The spec names the two tenant conditions without fixing
    their texts; they are rendered by their names. *)
Definition Error (e : error) : string :=
  match e with
  | ErrNoTenant => "NoTenant"
  | ErrInvalidTenantValue raw => String.append "InvalidTenantValue: " raw
  | wrapError msg _ => msg
  | statusError s => status_type.Message s
  end.

Module fmt.
(** [fmt.Errorf(prefix + "%w", err)] *)
Definition Errorf_w (prefix : string) (err : error) : error :=
  wrapError (String.append prefix (Error err)) err.
End fmt.

(** ** Package [google.golang.org/grpc/status] *)

Module status.

(** [status.New(c, msg)] *)
Definition New (c : codes.Code) (msg : string) : status_type.Status :=
  status_type.mkStatus c msg.

(** [s.Err()]: nil for the code [OK], an error carrying the status
    otherwise. *)
Definition Err (s : status_type.Status) : option error :=
  if codes.isOK (status_type.Code s) then None else Some (statusError s).

(** [status.Code(err)] for the errors of this package: the code of a
    status error, [Unknown] for any other error, [OK] for nil. *)
Definition Code (err : option error) : codes.Code :=
  match err with
  | None => codes.OK
  | Some (statusError s) => status_type.Code s
  | Some _ => codes.Unknown
  end.

End status.

(** ** Package [context] (Go standard library)

    A context is an immutable chain of key/value nodes over the empty
    background context; [Value] returns the value of the closest node that
    carries the key. *)

Module context.

Inductive Context (K V : Type) :=
| Background
| WithValue (parent : Context K V) (key : K) (val : V).
Arguments Background {K V}.
Arguments WithValue {K V} parent key val.

Fixpoint Value {K V : Type} `{EqDecision K}
    (ctx : Context K V) (key : K) : option V :=
  match ctx with
  | Background => None
  | WithValue parent k v =>
      if decide (k = key) then Some v else Value parent key
  end.

Definition parent {K V : Type} (ctx : Context K V) : option (Context K V) :=
  match ctx with
  | Background => None
  | WithValue p _ _ => Some p
  end.

End context.

(** ** Base-10 notation

    Reading a string of decimal digits, used to state what a textual
    encoding denotes. *)

Module decimal.

Definition isDigit (c : ascii) : bool :=
  let n := nat_of_ascii c in ((48 <=? n) && (n <=? 57))%nat.

Definition digitVal (c : ascii) : Z := Z.of_nat (nat_of_ascii c) - 48.

(** The value of a string of decimal digits, most significant digit first;
    [None] when a byte is not a digit. *)
Fixpoint parseDigits (s : string) (acc : Z) : option Z :=
  match s with
  | EmptyString => Some acc
  | String c s' =>
      if isDigit c then parseDigits s' (acc * 10 + digitVal c) else None
  end.


End decimal.

(** ** Package [internal/tenant/internal/tenanttype]

    The source of this package is not available; its operations are
    modelled from the specification of the tenant context store. *)

Module tenanttype.

(** Go's [int] at 64 bits: the largest value of an identifier. *)
Definition maxInt : Z := 9223372036854775807.

(** Modelled from the spec: the type [Tenant] of package [tenanttype] is
    missing.  A TenantIdentifier is an integer naming a tenant; [ID] is its
    canonical numeric value ([id.ID() -> integer]). *)
Record Tenant := mkTenant { ID : Z }.

(** A valid identifier is a positive integer that fits Go's [int]. *)
Definition valid (t : Tenant) : Prop := 1 <= ID t <= maxInt.

(** Keys and values of the request-scoped key/value carrier: the store's
    own key with an identifier as value, and the attachments of other
    packages. *)
Inductive contextKey :=
| tenantKey
| foreignKey (name : string).

Inductive contextValue :=
| tenantValue (t : Tenant)
| foreignValue (v : string).

#[global] Instance contextKey_eq_dec : EqDecision contextKey.
Proof. solve_decision. Defined.

Abbreviation Ctx := (context.Context contextKey contextValue).

(** Modelled from the spec: the function [FromContext] of package
    [tenanttype] is missing.  "returns the attached identifier, or fails
    with a NoTenant condition if none is attached.  Side-effect free." *)
Definition FromContext (ctx : Ctx) : result Tenant :=
  match context.Value ctx tenantKey with
  | Some (tenantValue t) => Ok t
  | _ => Err ErrNoTenant
  end.

(** Modelled from the spec: the function [WithTenant] of package
    [tenanttype] is missing.  "returns a new context derived from ctx with
    id attached, shadowing any prior attachment.  Does not mutate ctx." *)
Definition WithTenant (ctx : Ctx) (t : Tenant) : Ctx :=
  context.WithValue ctx tenantKey (tenantValue t).

(** Modelled from the spec: the decoding inside [Unmarshal] of package
    [tenanttype] is missing.  The textual encoding is the "base-10 string
    of the identifier's integer value, no leading zeros, no sign for
    positive values, no whitespace": a non-empty string of digits that
    does not start with a zero digit followed by more digits. *)
Definition decodeDecimal (raw : string) : option Z :=
  match raw with
  | EmptyString => None
  | String c rest =>
      if Ascii.eqb c "0" && negb (String.eqb rest "") then None
      else decimal.parseDigits raw 0
  end.

(** Modelled from the spec: the function [Unmarshal] of package
    [tenanttype] is missing.  "parses a textual encoding into an
    identifier; fails with InvalidTenantValue if raw is not a valid
    encoding of a positive integer identifier (non-numeric, negative, zero,
    or otherwise malformed)".  A value beyond Go's [int] has no identifier
    and is rejected as well. *)
Definition Unmarshal (raw : string) : result Tenant :=
  match decodeDecimal raw with
  | Some n =>
      if (1 <=? n) && (n <=? maxInt) then Ok (mkTenant n)
      else Err (ErrInvalidTenantValue raw)
  | None => Err (ErrInvalidTenantValue raw)
  end.

End tenanttype.

(** ** Package [tenant]: [internal/tenant/grpc.go] *)

Module Propagator.

(** [headerKeyTenantID] is the header key for the tenant ID. *)
Definition headerKeyTenantID : string := "X-Sourcegraph-Tenant-ID".

(** [headerValueNoTenant] indicates the request has no tenant. *)
Definition headerValueNoTenant : string := "none".

(** [func (Propagator) FromContext(ctx context.Context) metadata.MD] *)
Definition FromContext (ctx : tenanttype.Ctx) : metadata.MD :=
  let md := metadata.make in
  match tenanttype.FromContext ctx with
  | Err _ => metadata.Append md headerKeyTenantID [headerValueNoTenant]
  | Ok tenant =>
      metadata.Append md headerKeyTenantID [strconv.Itoa (tenanttype.ID tenant)]
  end.

(** [raw] of [InjectContext]: the first value under the header key, the
    empty string when there is none. *)
Definition rawValue (md : metadata.MD) : string :=
  match metadata.Get md headerKeyTenantID with
  | v :: _ => v
  | [] => EmptyString
  end.

(** [func (Propagator) InjectContext(ctx context.Context, md metadata.MD)
    (context.Context, error)] *)
Definition InjectContext (ctx : tenanttype.Ctx) (md : metadata.MD)
    : tenanttype.Ctx * option error :=
  let raw := rawValue md in
  if String.eqb raw "" || String.eqb raw headerValueNoTenant then
    (ctx, None)
  else
    match tenanttype.Unmarshal raw with
    | Err err =>
        (ctx,
         status.Err
           (status.New codes.InvalidArgument
              (Error (fmt.Errorf_w "bad tenant value in metadata: " err))))
    | Ok tenant => (tenanttype.WithTenant ctx tenant, None)
    end.

End Propagator.

(** ** Package [main]: [cmd/zoekt/main.go] *)

Module zoekt_main.

(** [len(s)] as a Go [int]. *)
Definition len {E : Type} (s : list E) : Z := Z.of_nat (length s).

(** The slice expressions [s[:idx]] and [s[idx:]]: they panic ([None])
    when the index is negative or beyond the slice.  A slice and the nil
    slice of length zero are both the empty list. *)
Definition sliceTo {E : Type} (s : list E) (idx : Z) : option (list E) :=
  if (0 <=? idx) && (idx <=? len s) then Some (take (Z.to_nat idx) s) else None.

Definition sliceFrom {E : Type} (s : list E) (idx : Z) : option (list E) :=
  if (0 <=? idx) && (idx <=? len s) then Some (drop (Z.to_nat idx) s) else None.

(** [func splitAtIndex[E any](s []E, idx int) ([]E, []E)]; [None] is a
    run-time panic. *)
Definition splitAtIndex {E : Type} (s : list E) (idx : Z)
    : option (list E * list E) :=
  if idx <? len s then
    lo ← sliceTo s idx; hi ← sliceFrom s idx; Some (lo, hi)
  else Some (s, []).

End zoekt_main.

(** ** Package [main], continued: printing the matches

    Standard output is the list of the strings written by the successive
    [fmt.Printf] and [fmt.Println] calls, in order. *)

Module zoekt_cli.

Definition lineMatchesPerFile : Z := 3.
Definition fileMatchesPerSearch : Z := 6.

(** The newline and tab bytes. *)
Definition nl : string := String (ascii_of_nat 10) EmptyString.
Definition tab : string := String (ascii_of_nat 9) EmptyString.

(** [zoekt.LineMatch] and [zoekt.FileMatch], with the fields that
    [displayMatches] reads; [Line] is a [[]byte]. *)
Record LineMatch := mkLineMatch {
  LineNumber : Z;
  Line : string;
  DebugScore : string
}.

Record FileMatch := mkFileMatch {
  Repository : string;
  FileName : string;
  Debug : string;
  LineMatches : list LineMatch
}.

(** [type QueryCase struct] *)
Record QueryCase := mkQueryCase {
  Query : string;
  Files : list string
}.

(** [slices.Contains] on strings. *)
Definition slices_Contains (l : list string) (x : string) : bool :=
  existsb (String.eqb x) l.

(** [func addTabIfNonEmpty(s string) string] *)
Definition addTabIfNonEmpty (s : string) : string :=
  if negb (String.eqb s "") then String.append tab s else s.

(** [fmt.Printf("%d:%s%s\n", m.LineNumber, m.Line,
    addTabIfNonEmpty(m.DebugScore))] *)
Definition lineOutput (m : LineMatch) : string :=
  String.append (strconv.Itoa (LineNumber m))
    (String.append ":"
       (String.append (Line m)
          (String.append (addTabIfNonEmpty (DebugScore m)) nl))).

(** [fmt.Printf("hidden %d more line matches\n", len(hidden))] and its
    sibling for files. *)
Definition hiddenOutput (n : Z) (what : string) : string :=
  String.append "hidden "
    (String.append (strconv.Itoa n)
       (String.append " more "
          (String.append what (String.append " matches" nl)))).

(** One iteration of the loop over the files of [displayMatches]; [None]
    is a run-time panic.  The flag [list] of the source is [list_] here. *)
Definition displayFile (queryMatch : QueryCase) (withRepo list_ : bool)
    (f : FileMatch) : option (list string) :=
  let r := if withRepo then String.append (Repository f) "/" else EmptyString in
  let star :=
    if slices_Contains (Files queryMatch) (FileName f)
    then ["*** "%string] else [] in
  let name :=
    String.append r
      (String.append (FileName f)
         (String.append (addTabIfNonEmpty (Debug f)) nl)) in
  if list_ then Some (star ++ [name])
  else
    '(lines, hidden) ← zoekt_main.splitAtIndex (LineMatches f) lineMatchesPerFile;
    Some (star ++ [name] ++ map lineOutput lines
          ++ (if 0 <? zoekt_main.len hidden
              then [hiddenOutput (zoekt_main.len hidden) "line"] else [])
          ++ [nl]).

(** The loop [for _, f := range files]. *)
Fixpoint displayFiles (queryMatch : QueryCase) (withRepo list_ : bool)
    (files : list FileMatch) : option (list string) :=
  match files with
  | [] => Some []
  | f :: rest =>
      out ← displayFile queryMatch withRepo list_ f;
      outs ← displayFiles queryMatch withRepo list_ rest;
      Some (out ++ outs)
  end.

(** [func displayMatches(files []zoekt.FileMatch, queryMatch QueryCase,
    withRepo bool, list bool)]: what it writes, [None] for a panic. *)
Definition displayMatches (files : list FileMatch) (queryMatch : QueryCase)
    (withRepo list_ : bool) : option (list string) :=
  let header :=
    if 0 <? zoekt_main.len (Files queryMatch)
    then [String.append "------- QUERY: "
            (String.append (Query queryMatch)
               (String.append " -------" (String.append nl nl)))]
    else [] in
  '(shown, hiddenFiles) ← zoekt_main.splitAtIndex files fileMatchesPerSearch;
  body ← displayFiles queryMatch withRepo list_ shown;
  Some (header ++ body
        ++ (if 0 <? zoekt_main.len hiddenFiles
            then [hiddenOutput (zoekt_main.len hiddenFiles) "file"] else [])
        ++ (if 0 <? zoekt_main.len (Files queryMatch) then [nl] else [])).

End zoekt_cli.

(** ** Package [main], continued: [loadShard]

    The calls into [os] and into package [zoekt] are parameters: each
    returns a value or an error.  What [loadShard] does besides returning
    is the list of its events, in order: closing the index file and
    writing to the log. *)

Module shard.

Section LoadShard.

Variables File IndexFile Searcher Repo Index Err : Type.

(** [os.Open], [zoekt.NewIndexFile], [zoekt.NewSearcher] and
    [zoekt.ReadMetadata]. *)
Variable os_Open : string -> File + Err.
Variable NewIndexFile : File -> IndexFile + Err.
Variable NewSearcher : IndexFile -> Searcher + Err.
Variable ReadMetadata : IndexFile -> (Repo * Index) + Err.

(** [err.Error()], which [%v] prints, and the [%#v] rendering of the two
    metadata values. *)
Variable errText : Err -> string.
Variable repoSyntax : Repo -> string.
Variable indexSyntax : Index -> string.

Inductive event :=
| Close (iFile : IndexFile)
| Log (msg : string).

(** The error result: an error of a call handed on as it is, or a new
    error made by [fmt.Errorf] with [%v]. *)
Inductive failure :=
| passed (err : Err)
| formatted (msg : string).

(** [fmt.Errorf(name + "(%s): %v", fn, err)] *)
Definition callFailed (name fn : string) (err : Err) : failure :=
  formatted
    (String.append name
       (String.append "("
          (String.append fn (String.append "): " (errText err))))).

(** [func loadShard(fn string, verbose bool) (zoekt.Searcher, error)] *)
Definition loadShard (fn : string) (verbose : bool)
    : (Searcher + failure) * list event :=
  match os_Open fn with
  | inr err => (inr (passed err), [])
  | inl f =>
      match NewIndexFile f with
      | inr err => (inr (passed err), [])
      | inl iFile =>
          match NewSearcher iFile with
          | inr err => (inr (callFailed "NewSearcher" fn err), [Close iFile])
          | inl s =>
              if verbose then
                match ReadMetadata iFile with
                | inr err =>
                    (inr (callFailed "ReadMetadata" fn err), [Close iFile])
                | inl (repo, index) =>
                    (inl s,
                     [Log (String.append "repo metadata: " (repoSyntax repo));
                      Log (String.append "index metadata: " (indexSyntax index))])
                end
              else (inl s, [])
          end
      end
  end.

End LoadShard.

Arguments Close {IndexFile} iFile.
Arguments Log {IndexFile} msg.
Arguments passed {Err} err.
Arguments formatted {Err} msg.
Arguments loadShard {File IndexFile Searcher Repo Index Err}
  os_Open NewIndexFile NewSearcher ReadMetadata errText repoSyntax indexSyntax
  fn verbose.

End shard.

(** ** The wire format of an identifier

    What the specification calls a valid encoding of a positive integer
    identifier: the string [strconv.Itoa] writes for some identifier
    value, stated without reference to the decoder. *)

Module wire.


(** The key under which [metadata.MD] stores the tenant header. *)
Definition storedKey : string := strings.ToLower Propagator.headerKeyTenantID.

End wire.

(** ** Sample contexts *)

Module sample.

(** A caller context with tenant 42 attached. *)
Definition caller42 : tenanttype.Ctx :=
  tenanttype.WithTenant context.Background (tenanttype.mkTenant 42).

(** A callee context that already carries tenant 7 and a foreign value. *)
Definition callee7 : tenanttype.Ctx :=
  tenanttype.WithTenant
    (context.WithValue context.Background
       (tenanttype.foreignKey "trace") (tenanttype.foreignValue "f3a9"))
    (tenanttype.mkTenant 7).

End sample.

(** * Properties *)

Example Itoa_42 : strconv.Itoa 42 = "42"%string.
Proof. reflexivity. Qed.

Example Itoa_neg : strconv.Itoa (-507) = "-507"%string.
Proof. reflexivity. Qed.

Example Itoa_max :
  strconv.Itoa tenanttype.maxInt = "9223372036854775807"%string.
Proof. vm_compute. reflexivity. Qed.

(** ** Decimal formatting and reading *)

Section Digits.

Import strconv decimal.

Lemma digitChar_isDigit (d : Z) :
  0 <= d < 10 -> isDigit (digitChar d) = true /\ digitVal (digitChar d) = d.
Proof.
  intros Hd.
  assert (Hcases : d = 0 \/ d = 1 \/ d = 2 \/ d = 3 \/ d = 4 \/
                   d = 5 \/ d = 6 \/ d = 7 \/ d = 8 \/ d = 9) by lia.
  repeat (destruct Hcases as [-> | Hcases]; [split; reflexivity |]).
  subst d; split; reflexivity.
Qed.



Lemma append_assoc (s1 s2 s3 : string) :
  String.append (String.append s1 s2) s3 = String.append s1 (String.append s2 s3).
Proof.
  induction s1 as [| c s1 IH]; [reflexivity |].
  change (String c (String.append (String.append s1 s2) s3) =
          String c (String.append s1 (String.append s2 s3))).
  f_equal. exact IH.
Qed.

(** What is already written stays behind the digits. *)
Lemma formatBits_acc (fuel : nat) :
  forall u acc, formatBits fuel u acc = String.append (formatBits fuel u "") acc.
Proof.
  induction fuel as [| fuel IH]; intros u acc; simpl.
  - destruct (u <? 10); reflexivity.
  - destruct (u <? 10); [reflexivity |].
    rewrite IH, (IH _ (String _ "")).
    rewrite append_assoc. reflexivity.
Qed.

Lemma enough_div (fuel : nat) (u : Z) :
  0 <= u -> enough (S fuel) u -> enough fuel (u / 10).
Proof.
  unfold enough. intros Hu H.
  apply Z.div_lt_upper_bound; [lia |].
  replace (Z.of_nat (S fuel) + 1) with (Z.succ (Z.of_nat fuel + 1)) in H by lia.
  rewrite Z.pow_succ_r in H by lia. exact H.
Qed.

Lemma formatBits_fuel (f1 : nat) :
  forall f2 u acc, 0 <= u -> enough f1 u -> enough f2 u ->
    formatBits f1 u acc = formatBits f2 u acc.
Proof.
  induction f1 as [| f1 IH]; intros f2 u acc Hu H1 H2.
  - unfold enough in H1. simpl in H1.
    destruct f2; simpl; destruct (u <? 10) eqn:E; try reflexivity;
      apply Z.ltb_ge in E; lia.
  - destruct f2 as [| f2]; simpl; destruct (u <? 10) eqn:E; try reflexivity.
    + unfold enough in H2. simpl in H2. apply Z.ltb_ge in E. lia.
    + apply IH; [apply Z.div_pos; lia | |]; apply enough_div; assumption.
Qed.

Lemma enough_fuelFor (u : Z) : 0 <= u -> enough (fuelFor u) u.
Proof.
  intros Hu. unfold enough, fuelFor.
  rewrite Z2Nat.id by apply Z.log2_nonneg.
  destruct (Z.eq_dec u 0) as [-> | Hne]; [reflexivity |].
  assert (Hl := Z.log2_spec u ltac:(lia)).
  assert (Hp : 2 ^ (Z.log2 u + 1) <= 10 ^ (Z.log2 u + 1)).
  { apply Z.pow_le_mono_l. lia. }
  replace (Z.succ (Z.log2 u)) with (Z.log2 u + 1) in Hl by lia. lia.
Qed.

Lemma enough_le (fuel : nat) (u v : Z) : v <= u -> enough fuel u -> enough fuel v.
Proof. unfold enough. lia. Qed.

(** The loop, unrolled once. *)
Lemma formatDecimal_small (u : Z) :
  0 <= u < 10 -> formatDecimal u = String (digitChar u) "".
Proof.
  intros Hu. unfold formatDecimal.
  destruct (fuelFor u); simpl;
    (destruct (u <? 10) eqn:E; [reflexivity | apply Z.ltb_ge in E; lia]).
Qed.

Lemma formatDecimal_step (u : Z) :
  10 <= u ->
  formatDecimal u =
    String.append (formatDecimal (u / 10)) (String (digitChar (u mod 10)) "").
Proof.
  intros Hu. unfold formatDecimal.
  assert (Hq : 0 <= u / 10) by (apply Z.div_pos; lia).
  assert (Hle : u / 10 <= u) by (apply Z.div_le_upper_bound; lia).
  rewrite (formatBits_fuel (fuelFor u) (S (fuelFor u)) u "");
    [| lia | apply enough_fuelFor; lia
     | unfold enough in *; pose proof (enough_fuelFor u ltac:(lia)) as He;
       unfold enough in He;
       replace (Z.of_nat (S (fuelFor u)) + 1)
         with (Z.succ (Z.of_nat (fuelFor u) + 1)) by lia;
       rewrite Z.pow_succ_r by lia; lia].
  simpl. destruct (u <? 10) eqn:E; [apply Z.ltb_lt in E; lia |].
  rewrite formatBits_acc.
  rewrite (formatBits_fuel (fuelFor u) (fuelFor (u / 10)) (u / 10) "");
    [reflexivity | exact Hq | | apply enough_fuelFor; exact Hq].
  apply (enough_le _ u); [exact Hle | apply enough_fuelFor; lia].
Qed.

Lemma parseDigits_cons (c : ascii) (s : string) (acc : Z) :
  parseDigits (String c s) acc =
  if isDigit c then parseDigits s (acc * 10 + digitVal c) else None.
Proof. reflexivity. Qed.

Lemma parseDigits_app (s1 s2 : string) :
  forall acc,
    parseDigits (String.append s1 s2) acc =
    match parseDigits s1 acc with
    | Some v => parseDigits s2 v
    | None => None
    end.
Proof.
  induction s1 as [| c s1 IH]; intros acc; [reflexivity |].
  change (String.append (String c s1) s2) with (String c (String.append s1 s2)).
  rewrite !parseDigits_cons.
  destruct (isDigit c); [apply IH | reflexivity].
Qed.

(** Reading the digits written for [u] gives [u] back. *)
Lemma parseDigits_formatDecimal (u : Z) :
  0 <= u -> parseDigits (formatDecimal u) 0 = Some u.
Proof.
  intros Hu. generalize Hu. pattern u. apply Z_lt_induction; [| exact Hu].
  clear u Hu. intros u IH Hu.
  destruct (Z_lt_le_dec u 10) as [Hlt | Hge].
  - rewrite formatDecimal_small by lia. rewrite parseDigits_cons.
    destruct (digitChar_isDigit u ltac:(lia)) as [-> ->]. reflexivity.
  - assert (Hq : 0 <= u / 10) by (apply Z.div_pos; lia).
    rewrite formatDecimal_step by exact Hge.
    rewrite parseDigits_app, IH; [| split; [exact Hq | apply Z.div_lt; lia] | exact Hq].
    rewrite parseDigits_cons.
    destruct (digitChar_isDigit (u mod 10)) as [-> ->].
    + apply Z.mod_pos_bound. lia.
    + cbn [parseDigits]. f_equal. rewrite (Z.div_mod u 10) at 3 by lia. lia.
Qed.




(** The written digits start with a digit other than zero. *)
Lemma formatDecimal_head (u : Z) :
  1 <= u ->
  exists c rest,
    formatDecimal u = String c rest /\ isDigit c = true /\ c <> "0"%char.
Proof.
  intros Hu. assert (H0 : 0 <= u) by lia.
  generalize Hu. pattern u. apply Z_lt_induction; [| exact H0].
  clear u Hu H0. intros u IH Hu.
  destruct (Z_lt_le_dec u 10) as [Hlt | Hge].
  - exists (digitChar u), EmptyString.
    destruct (digitChar_isDigit u ltac:(lia)) as [Hd Hval].
    split; [apply formatDecimal_small; lia | split; [exact Hd |]].
    intros E. rewrite E in Hval. vm_compute in Hval. lia.
  - assert (Hq : 1 <= u / 10) by (apply Z.div_le_lower_bound; lia).
    destruct (IH (u / 10)) as (c & rest & E & Hc & Hne);
      [split; [lia | apply Z.div_lt; lia] | exact Hq |].
    exists c, (String.append rest (String (digitChar (u mod 10)) "")).
    rewrite formatDecimal_step by exact Hge. rewrite E.
    split; [reflexivity | split; assumption].
Qed.


(** *** The decoder of the tenant store against [strconv.Itoa] *)

Lemma Itoa_nonneg (n : Z) : 0 <= n -> Itoa n = formatDecimal n.
Proof.
  intros Hn. unfold Itoa.
  destruct (n <? 0) eqn:E; [apply Z.ltb_lt in E; lia | reflexivity].
Qed.

Lemma decodeDecimal_Itoa (n : Z) :
  0 <= n -> tenanttype.decodeDecimal (Itoa n) = Some n.
Proof.
  intros Hn. rewrite Itoa_nonneg by exact Hn.
  destruct (Z.eq_dec n 0) as [-> | Hne]; [reflexivity |].
  destruct (formatDecimal_head n ltac:(lia)) as (c & rest & E & Hc & Hz).
  unfold tenanttype.decodeDecimal.
  pose proof (parseDigits_formatDecimal n Hn) as Hp.
  rewrite E in *.
  destruct (Ascii.eqb c "0") eqn:Ec; [apply Ascii.eqb_eq in Ec; contradiction |].
  exact Hp.
Qed.


End Digits.

(** ** The tenant store's decoder *)

Lemma Unmarshal_Itoa (n : Z) :
  1 <= n <= tenanttype.maxInt ->
  tenanttype.Unmarshal (strconv.Itoa n) = Ok (tenanttype.mkTenant n).
Proof.
  intros [Hlo Hhi]. unfold tenanttype.Unmarshal.
  rewrite decodeDecimal_Itoa by lia.
  destruct (1 <=? n) eqn:E1; [| apply Z.leb_gt in E1; lia].
  destruct (n <=? tenanttype.maxInt) eqn:E2; [| apply Z.leb_gt in E2; lia].
  reflexivity.
Qed.




Lemma Itoa_not_empty (n : Z) : 1 <= n -> String.eqb (strconv.Itoa n) "" = false.
Proof.
  intros Hn. apply String.eqb_neq. intros E.
  pose proof (decodeDecimal_Itoa n ltac:(lia)) as Hd.
  rewrite E in Hd. discriminate Hd.
Qed.

Lemma Itoa_not_sentinel (n : Z) :
  1 <= n -> String.eqb (strconv.Itoa n) Propagator.headerValueNoTenant = false.
Proof.
  intros Hn. apply String.eqb_neq. intros E.
  pose proof (decodeDecimal_Itoa n ltac:(lia)) as Hd.
  rewrite E in Hd. discriminate Hd.
Qed.

(** ** Metadata *)

Lemma Get_lookup (md : metadata.MD) (vals : list string) :
  md !! wire.storedKey = Some vals ->
  metadata.Get md Propagator.headerKeyTenantID = vals.
Proof. intros H. unfold metadata.Get. fold wire.storedKey. now rewrite H. Qed.

Lemma Get_absent (md : metadata.MD) :
  md !! wire.storedKey = None ->
  metadata.Get md Propagator.headerKeyTenantID = [].
Proof. intros H. unfold metadata.Get. fold wire.storedKey. now rewrite H. Qed.

Lemma Append_make (v : string) :
  metadata.Append metadata.make Propagator.headerKeyTenantID [v] =
  {[ wire.storedKey := [v] ]}.
Proof.
  unfold metadata.Append, metadata.make. fold wire.storedKey.
  rewrite lookup_empty. cbn [default app]. apply insert_empty.
Qed.

Lemma Get_singleton (v : string) :
  metadata.Get ({[ wire.storedKey := [v] ]} : metadata.MD)
    Propagator.headerKeyTenantID = [v].
Proof. apply Get_lookup. apply lookup_singleton_eq. Qed.

Lemma rawValue_Get (md : metadata.MD) (v : string) (rest : list string) :
  metadata.Get md Propagator.headerKeyTenantID = v :: rest ->
  Propagator.rawValue md = v.
Proof. intros H. unfold Propagator.rawValue. now rewrite H. Qed.

Lemma rawValue_head (md1 md2 : metadata.MD) :
  head (metadata.Get md1 Propagator.headerKeyTenantID) =
  head (metadata.Get md2 Propagator.headerKeyTenantID) ->
  Propagator.rawValue md1 = Propagator.rawValue md2.
Proof.
  unfold Propagator.rawValue.
  destruct (metadata.Get md1 _) as [| v1 r1];
    destruct (metadata.Get md2 _) as [| v2 r2]; cbn [head];
    intros H; first [discriminate H | reflexivity | now injection H].
Qed.

(** [InjectContext] reads the metadata through [rawValue] only. *)
Lemma InjectContext_rawValue (ctx : tenanttype.Ctx) (md1 md2 : metadata.MD) :
  Propagator.rawValue md1 = Propagator.rawValue md2 ->
  Propagator.InjectContext ctx md1 = Propagator.InjectContext ctx md2.
Proof. intros H. unfold Propagator.InjectContext. now rewrite H. Qed.

Lemma InjectContext_no_tenant (ctx : tenanttype.Ctx) (md : metadata.MD) :
  Propagator.rawValue md = EmptyString \/
  Propagator.rawValue md = Propagator.headerValueNoTenant ->
  Propagator.InjectContext ctx md = (ctx, None).
Proof.
  intros [H | H]; unfold Propagator.InjectContext; rewrite H; reflexivity.
Qed.

(** ** Extract: [Propagator.FromContext] *)

Lemma FromContext_tenant (ctx : tenanttype.Ctx) (t : tenanttype.Tenant) :
  tenanttype.FromContext ctx = Ok t ->
  Propagator.FromContext ctx =
    {[ wire.storedKey := [strconv.Itoa (tenanttype.ID t)] ]}.
Proof.
  intros H. unfold Propagator.FromContext. rewrite H. apply Append_make.
Qed.

Lemma FromContext_no_tenant (ctx : tenanttype.Ctx) (e : error) :
  tenanttype.FromContext ctx = Err e ->
  Propagator.FromContext ctx =
    {[ wire.storedKey := [Propagator.headerValueNoTenant] ]}.
Proof.
  intros H. unfold Propagator.FromContext. rewrite H. apply Append_make.
Qed.

Lemma FromContext_entry (ctx : tenanttype.Ctx) :
  exists v : string, Propagator.FromContext ctx = {[ wire.storedKey := [v] ]}.
Proof.
  destruct (tenanttype.FromContext ctx) as [t | e] eqn:E.
  - eexists. exact (FromContext_tenant ctx t E).
  - eexists. exact (FromContext_no_tenant ctx e E).
Qed.

(** C6. Encode/decode inversion: for every valid tenant identifier (a
    positive integer in the range of [int]), [Unmarshal] applied to the
    decimal text [strconv.Itoa] writes for its numeric value succeeds and
    returns that identifier; in particular the encoding is always a string
    [Unmarshal] accepts. *)
Theorem unmarshal_itoa_inverse (t : tenanttype.Tenant) :
  tenanttype.valid t ->
  tenanttype.Unmarshal (strconv.Itoa (tenanttype.ID t)) = Ok t.
Proof.
  intros Hv. destruct t as [n]. cbn [tenanttype.ID] in *.
  apply Unmarshal_Itoa. exact Hv.
Qed.

Lemma unmarshal_itoa_inverse_witness :
  tenanttype.valid (tenanttype.mkTenant 42) /\
  tenanttype.Unmarshal (strconv.Itoa 42) = Ok (tenanttype.mkTenant 42).
Proof.
  assert (Hv : tenanttype.valid (tenanttype.mkTenant 42))
    by (unfold tenanttype.valid, tenanttype.maxInt; simpl; lia).
  split; [exact Hv |].
  exact (unmarshal_itoa_inverse (tenanttype.mkTenant 42) Hv).
Defined.

(** C1. End-to-end round trip: when a context carries a valid tenant
    identifier [t], Extract produces the single metadata entry under the
    reserved header key whose value is the decimal text of the
    identifier, and Inject applied to that metadata against any callee
    context returns no error and a context whose [FromContext] lookup
    yields [t] again. *)
Theorem extract_inject_round_trip
    (ctx callee : tenanttype.Ctx) (t : tenanttype.Tenant) :
  tenanttype.FromContext ctx = Ok t ->
  tenanttype.valid t ->
  let md := Propagator.FromContext ctx in
  md = {[ wire.storedKey := [strconv.Itoa (tenanttype.ID t)] ]} /\
  metadata.Get md Propagator.headerKeyTenantID =
    [strconv.Itoa (tenanttype.ID t)] /\
  exists ctx' : tenanttype.Ctx,
    Propagator.InjectContext callee md = (ctx', None) /\
    tenanttype.FromContext ctx' = Ok t.
Proof.
  intros Hctx Hv md. subst md.
  rewrite (FromContext_tenant ctx t Hctx). clear Hctx.
  destruct t as [n]. unfold tenanttype.valid in Hv. cbn [tenanttype.ID] in *.
  split; [reflexivity |]. split; [apply Get_singleton |].
  exists (tenanttype.WithTenant callee (tenanttype.mkTenant n)).
  split; [| reflexivity].
  unfold Propagator.InjectContext.
  rewrite (rawValue_Get _ _ _ (Get_singleton _)).
  destruct Hv as [Hlo Hhi].
  rewrite Itoa_not_empty, Itoa_not_sentinel by exact Hlo. cbn [orb].
  rewrite Unmarshal_Itoa by (split; assumption). reflexivity.
Qed.

Lemma extract_inject_round_trip_witness :
  Propagator.FromContext sample.caller42 = {[ wire.storedKey := ["42"%string] ]} /\
  metadata.Get (Propagator.FromContext sample.caller42)
    Propagator.headerKeyTenantID = ["42"%string] /\
  exists ctx' : tenanttype.Ctx,
    Propagator.InjectContext context.Background
      (Propagator.FromContext sample.caller42) = (ctx', None) /\
    tenanttype.FromContext ctx' = Ok (tenanttype.mkTenant 42).
Proof.
  apply (extract_inject_round_trip sample.caller42 context.Background
           (tenanttype.mkTenant 42)).
  - reflexivity.
  - unfold tenanttype.valid, tenanttype.maxInt; simpl; lia.
Defined.

(** C2. Extract is total and never fails: for every context it returns
    metadata holding one entry under the reserved key (the result type has
    no error component), and when the tenant store reports an error, that
    is when no tenant is attached, the value of the entry is exactly the
    sentinel ["none"]. *)
Theorem extract_never_fails (ctx : tenanttype.Ctx) :
  (exists v : string,
     Propagator.FromContext ctx = {[ wire.storedKey := [v] ]} /\
     metadata.Get (Propagator.FromContext ctx) Propagator.headerKeyTenantID = [v]) /\
  (forall e : error,
     tenanttype.FromContext ctx = Err e ->
     e = ErrNoTenant /\
     Propagator.FromContext ctx = {[ wire.storedKey := ["none"%string] ]} /\
     metadata.Get (Propagator.FromContext ctx) Propagator.headerKeyTenantID =
       ["none"%string]).
Proof.
  split.
  - destruct (FromContext_entry ctx) as [v Hv]. exists v.
    split; [exact Hv |]. rewrite Hv. apply Get_singleton.
  - intros e He. split.
    + unfold tenanttype.FromContext in He.
      destruct (context.Value ctx tenanttype.tenantKey) as [[t | v] |];
        first [discriminate He | injection He as <-; reflexivity].
    + rewrite (FromContext_no_tenant ctx e He).
      split; [reflexivity | apply Get_singleton].
Qed.

Lemma extract_never_fails_witness :
  tenanttype.FromContext context.Background = Err ErrNoTenant /\
  Propagator.FromContext context.Background =
    {[ wire.storedKey := ["none"%string] ]}.
Proof.
  split; [reflexivity |].
  exact (proj1 (proj2 (proj2 (extract_never_fails context.Background)
                         ErrNoTenant eq_refl))).
Defined.



Example storedKey_value : wire.storedKey = "x-sourcegraph-tenant-id"%string.
Proof. reflexivity. Qed.

(** ** Inject: [Propagator.InjectContext] *)

(** C3. For every context and every metadata in which the reserved key is
    absent, or whose first value under that key is the empty string or
    the sentinel ["none"], Inject returns the given context itself and no
    error.  The result for an absent key is therefore the result for the
    metadata that carries just the sentinel. *)
Theorem inject_without_tenant (ctx : tenanttype.Ctx) (md : metadata.MD) :
  md !! wire.storedKey = None \/
  head (metadata.Get md Propagator.headerKeyTenantID) = Some EmptyString \/
  head (metadata.Get md Propagator.headerKeyTenantID) = Some "none"%string ->
  Propagator.InjectContext ctx md = (ctx, None) /\
  Propagator.InjectContext ctx md =
    Propagator.InjectContext ctx {[ wire.storedKey := ["none"%string] ]}.
Proof.
  intros H.
  assert (Hraw : Propagator.rawValue md = EmptyString \/
                 Propagator.rawValue md = Propagator.headerValueNoTenant).
  { unfold Propagator.rawValue.
    destruct H as [H | [H | H]].
    - rewrite (Get_absent md H). now left.
    - destruct (metadata.Get md _) as [| v r]; [discriminate H |].
      injection H as ->. now left.
    - destruct (metadata.Get md _) as [| v r]; [discriminate H |].
      injection H as ->. now right. }
  rewrite (InjectContext_no_tenant ctx md Hraw). split; [reflexivity |].
  symmetry. apply InjectContext_no_tenant. right.
  apply (rawValue_Get _ _ []). apply Get_singleton.
Qed.

Lemma inject_without_tenant_witness :
  Propagator.InjectContext sample.callee7
    ({[ "other-key"%string := ["42"%string] ]}) = (sample.callee7, None) /\
  Propagator.InjectContext sample.callee7
    ({[ wire.storedKey := [""%string; "42"%string] ]}) = (sample.callee7, None) /\
  Propagator.InjectContext sample.callee7
    ({[ wire.storedKey := ["none"%string; "42"%string] ]}) = (sample.callee7, None).
Proof.
  split; [| split].
  - apply (inject_without_tenant sample.callee7
             {[ "other-key"%string := ["42"%string] ]}).
    left. vm_compute. reflexivity.
  - apply (inject_without_tenant sample.callee7
             {[ wire.storedKey := [""%string; "42"%string] ]}).
    right. left. vm_compute. reflexivity.
  - apply (inject_without_tenant sample.callee7
             {[ wire.storedKey := ["none"%string; "42"%string] ]}).
    right. right. vm_compute. reflexivity.
Defined.






(** C5. Duplicate handling: when the metadata carries one or more values
    under the reserved key, Inject consults the first one only; the
    returned context and error are those for any metadata that carries
    just that first value under the key, in particular for the same
    metadata with the further values removed. *)
Theorem inject_first_value_wins
    (ctx : tenanttype.Ctx) (md md' : metadata.MD)
    (v : string) (rest : list string) :
  metadata.Get md Propagator.headerKeyTenantID = v :: rest ->
  metadata.Get md' Propagator.headerKeyTenantID = [v] ->
  Propagator.InjectContext ctx md = Propagator.InjectContext ctx md' /\
  Propagator.InjectContext ctx md =
    Propagator.InjectContext ctx (<[ wire.storedKey := [v] ]> md).
Proof.
  intros Hmd Hmd'. split; apply InjectContext_rawValue.
  - now rewrite (rawValue_Get md v rest Hmd), (rawValue_Get md' v [] Hmd').
  - rewrite (rawValue_Get md v rest Hmd). symmetry.
    apply (rawValue_Get _ v []). apply Get_lookup. apply lookup_insert_eq.
Qed.

Lemma inject_first_value_wins_witness :
  Propagator.InjectContext sample.callee7
    {[ wire.storedKey := ["42"%string; "abc"%string; "none"%string] ]} =
  Propagator.InjectContext sample.callee7 {[ wire.storedKey := ["42"%string] ]}.
Proof.
  apply (inject_first_value_wins sample.callee7
           {[ wire.storedKey := ["42"%string; "abc"%string; "none"%string] ]}
           {[ wire.storedKey := ["42"%string] ]}
           "42" ["abc"%string; "none"%string]);
    vm_compute; reflexivity.
Defined.

(** C9. Noninterference of Inject: two metadata maps that agree on the
    first value under the reserved key, or that both have no value there,
    give the same returned context and error; further values under the
    key and the entries under other keys have no influence. *)
Theorem inject_noninterference
    (ctx : tenanttype.Ctx) (md1 md2 : metadata.MD) :
  head (metadata.Get md1 Propagator.headerKeyTenantID) =
  head (metadata.Get md2 Propagator.headerKeyTenantID) ->
  Propagator.InjectContext ctx md1 = Propagator.InjectContext ctx md2.
Proof.
  intros H. apply InjectContext_rawValue. apply rawValue_head. exact H.
Qed.

Lemma inject_noninterference_witness :
  Propagator.InjectContext sample.callee7
    (<[ "authorization"%string := ["secret"%string] ]>
       {[ wire.storedKey := ["42"%string; "43"%string] ]}) =
  Propagator.InjectContext sample.callee7
    (<[ "user-agent"%string := ["zoekt"%string; "grpc"%string] ]>
       {[ wire.storedKey := ["42"%string; "abc"%string] ]}) /\
  Propagator.InjectContext sample.callee7
    {[ "authorization"%string := ["secret"%string] ]} =
  Propagator.InjectContext sample.callee7 ∅.
Proof.
  split.
  - apply (inject_noninterference sample.callee7
             (<[ "authorization"%string := ["secret"%string] ]>
                {[ wire.storedKey := ["42"%string; "43"%string] ]})
             (<[ "user-agent"%string := ["zoekt"%string; "grpc"%string] ]>
                {[ wire.storedKey := ["42"%string; "abc"%string] ]})).
    vm_compute. reflexivity.
  - apply (inject_noninterference sample.callee7
             {[ "authorization"%string := ["secret"%string] ]} ∅).
    vm_compute. reflexivity.
Defined.

(** ** The tenant store: attach and override *)

(** C8. Attach/override: attaching a tenant and then a second one yields a
    context on which [FromContext] returns the second (for tenants 1 and 2
    it returns 2, not 1).  Each [WithTenant] builds a new context on top
    of its argument, which it keeps as it is: the derived context has the
    argument as parent, the context with the first tenant still yields
    the first tenant, and every attachment under another key reads the
    same in the derived context as in the original. *)
Theorem with_tenant_override
    (ctx : tenanttype.Ctx) (t1 t2 : tenanttype.Tenant) :
  let c1 := tenanttype.WithTenant ctx t1 in
  let c2 := tenanttype.WithTenant c1 t2 in
  tenanttype.FromContext c2 = Ok t2 /\
  (t1 <> t2 -> tenanttype.FromContext c2 <> Ok t1) /\
  tenanttype.FromContext c1 = Ok t1 /\
  context.parent c1 = Some ctx /\
  context.parent c2 = Some c1 /\
  (forall k : tenanttype.contextKey,
     k <> tenanttype.tenantKey -> context.Value c2 k = context.Value ctx k).
Proof.
  cbv zeta. repeat split.
  - intros Hne H. injection H as H. congruence.
  - intros k Hk. unfold tenanttype.WithTenant. cbn [context.Value].
    destruct (decide (tenanttype.tenantKey = k)) as [E | E]; [congruence |].
    reflexivity.
Qed.

Lemma with_tenant_override_witness :
  tenanttype.FromContext
    (tenanttype.WithTenant
       (tenanttype.WithTenant sample.callee7 (tenanttype.mkTenant 1))
       (tenanttype.mkTenant 2)) = Ok (tenanttype.mkTenant 2) /\
  tenanttype.FromContext
    (tenanttype.WithTenant
       (tenanttype.WithTenant sample.callee7 (tenanttype.mkTenant 1))
       (tenanttype.mkTenant 2)) <> Ok (tenanttype.mkTenant 1) /\
  tenanttype.FromContext sample.callee7 = Ok (tenanttype.mkTenant 7).
Proof.
  pose proof (with_tenant_override sample.callee7
                (tenanttype.mkTenant 1) (tenanttype.mkTenant 2)) as H.
  cbv zeta in H. destruct H as (H2 & Hne & _).
  split; [exact H2 |]. split; [| reflexivity].
  apply Hne. discriminate.
Defined.

(** ** [splitAtIndex] *)

(** The claim C10 as stated fails for a negative index: the slice
    expression [s[:idx]] panics, so no pair is returned. *)
Lemma splitAtIndex_negative_index_panics :
  ~ (exists prefix suffix : list Z,
       zoekt_main.splitAtIndex [1; 2; 3] (-1) = Some (prefix, suffix) /\
       prefix ++ suffix = [1; 2; 3] /\
       zoekt_main.len prefix = Z.min (-1) (zoekt_main.len [1; 2; 3])).
Proof. intros (p & q & H & _). vm_compute in H. discriminate H. Qed.

(** C10 (amended). For every slice [s] and every index [idx] that is not
    negative (also when [idx] is at or beyond the length of [s]),
    [splitAtIndex] returns, without a panic, a pair whose concatenation is
    [s] and whose first component has length [min idx (len s)]; when
    [idx >= len s] the second component is empty. *)
Theorem splitAtIndex_split {E : Type} (s : list E) (idx : Z) :
  0 <= idx ->
  exists prefix suffix : list E,
    zoekt_main.splitAtIndex s idx = Some (prefix, suffix) /\
    prefix ++ suffix = s /\
    zoekt_main.len prefix = Z.min idx (zoekt_main.len s) /\
    (zoekt_main.len s <= idx -> suffix = []).
Proof.
  intros Hidx. unfold zoekt_main.splitAtIndex.
  destruct (idx <? zoekt_main.len s) eqn:E1.
  - apply Z.ltb_lt in E1.
    unfold zoekt_main.sliceTo, zoekt_main.sliceFrom.
    destruct (0 <=? idx) eqn:E2; [| apply Z.leb_gt in E2; lia].
    destruct (idx <=? zoekt_main.len s) eqn:E3; [| apply Z.leb_gt in E3; lia].
    cbn. exists (take (Z.to_nat idx) s), (drop (Z.to_nat idx) s).
    split; [reflexivity |]. split; [apply take_drop |].
    unfold zoekt_main.len in *. rewrite length_take. split; lia.
  - apply Z.ltb_ge in E1. exists s, [].
    split; [reflexivity |]. split; [apply app_nil_r |].
    split; [lia | reflexivity].
Qed.

Lemma splitAtIndex_split_witness :
  0 <= 6 /\
  exists prefix suffix : list Z,
    zoekt_main.splitAtIndex [10; 20; 30] 6 = Some (prefix, suffix) /\
    prefix ++ suffix = [10; 20; 30] /\
    zoekt_main.len prefix = Z.min 6 (zoekt_main.len [10; 20; 30]) /\
    (zoekt_main.len [10; 20; 30] <= 6 -> suffix = []).
Proof.
  split; [lia |]. apply (splitAtIndex_split [10; 20; 30] 6). lia.
Defined.

Example splitAtIndex_inside :
  zoekt_main.splitAtIndex [10; 20; 30; 40] 3 = Some ([10; 20; 30], [40]).
Proof. reflexivity. Qed.

Example splitAtIndex_beyond :
  zoekt_main.splitAtIndex [10; 20] 6 = Some ([10; 20], []).
Proof. reflexivity. Qed.

(** ** More on [splitAtIndex] *)

Lemma splitAtIndex_take_drop {E : Type} (s : list E) (idx : Z) :
  0 <= idx ->
  zoekt_main.splitAtIndex s idx =
    Some (take (Z.to_nat idx) s, drop (Z.to_nat idx) s).
Proof.
  intros Hidx. unfold zoekt_main.splitAtIndex.
  destruct (idx <? zoekt_main.len s) eqn:E1.
  - apply Z.ltb_lt in E1.
    unfold zoekt_main.sliceTo, zoekt_main.sliceFrom.
    destruct (0 <=? idx) eqn:E2; [| apply Z.leb_gt in E2; lia].
    destruct (idx <=? zoekt_main.len s) eqn:E3; [| apply Z.leb_gt in E3; lia].
    reflexivity.
  - apply Z.ltb_ge in E1. unfold zoekt_main.len in E1.
    rewrite take_ge, drop_ge by lia. reflexivity.
Qed.

Lemma splitAtIndex_negative {E : Type} (s : list E) (idx : Z) :
  idx < 0 -> zoekt_main.splitAtIndex s idx = None.
Proof.
  intros Hneg. unfold zoekt_main.splitAtIndex.
  assert (Hlen : 0 <= zoekt_main.len s) by (unfold zoekt_main.len; lia).
  destruct (idx <? zoekt_main.len s) eqn:E1; [| apply Z.ltb_ge in E1; lia].
  unfold zoekt_main.sliceTo.
  destruct (0 <=? idx) eqn:E2; [apply Z.leb_le in E2; lia |].
  reflexivity.
Qed.

(** X1. [splitAtIndex] panics exactly for a negative index, whatever the
    slice. *)
Theorem splitAtIndex_panics_iff {E : Type} (s : list E) (idx : Z) :
  zoekt_main.splitAtIndex s idx = None <-> idx < 0.
Proof.
  split.
  - intros H. destruct (Z_lt_le_dec idx 0) as [Hneg | Hpos]; [exact Hneg |].
    rewrite splitAtIndex_take_drop in H by exact Hpos. discriminate H.
  - apply splitAtIndex_negative.
Qed.

(** X2. Splitting is stable and accounts for every element: when
    [splitAtIndex s idx] returns [(prefix, suffix)], the suffix holds the
    [max 0 (len s - idx)] elements that are left, and splitting the prefix
    again at the same index returns it whole with an empty suffix. *)
Theorem splitAtIndex_resplit {E : Type} (s prefix suffix : list E) (idx : Z) :
  zoekt_main.splitAtIndex s idx = Some (prefix, suffix) ->
  zoekt_main.len suffix = Z.max 0 (zoekt_main.len s - idx) /\
  zoekt_main.splitAtIndex prefix idx = Some (prefix, []).
Proof.
  intros H.
  assert (Hidx : 0 <= idx).
  { destruct (Z_lt_le_dec idx 0) as [Hneg | Hpos]; [| exact Hpos].
    apply (splitAtIndex_negative s) in Hneg. congruence. }
  rewrite splitAtIndex_take_drop in H by exact Hidx.
  injection H as <- <-. split.
  - unfold zoekt_main.len. rewrite length_drop. lia.
  - rewrite splitAtIndex_take_drop by exact Hidx.
    rewrite take_take, Nat.min_id, drop_ge by (rewrite length_take; lia).
    reflexivity.
Qed.

Lemma splitAtIndex_resplit_witness :
  zoekt_main.len [40; 50] = Z.max 0 (zoekt_main.len [10; 20; 30; 40; 50] - 3) /\
  zoekt_main.splitAtIndex [10; 20; 30] 3 = Some ([10; 20; 30], []).
Proof.
  apply (splitAtIndex_resplit [10; 20; 30; 40; 50] [10; 20; 30] [40; 50] 3).
  reflexivity.
Defined.

(** ** [addTabIfNonEmpty] *)

(** X3. [addTabIfNonEmpty] loses nothing: two strings with the same result
    are the same string (so only the empty string gives the empty
    result). *)
Theorem addTabIfNonEmpty_injective (s1 s2 : string) :
  zoekt_cli.addTabIfNonEmpty s1 = zoekt_cli.addTabIfNonEmpty s2 -> s1 = s2.
Proof.
  unfold zoekt_cli.addTabIfNonEmpty, zoekt_cli.tab.
  destruct (String.eqb s1 "") eqn:E1; destruct (String.eqb s2 "") eqn:E2;
    cbn [negb]; intros H.
  - apply String.eqb_eq in E1, E2. now subst.
  - apply String.eqb_eq in E1. subst s1. discriminate H.
  - apply String.eqb_eq in E2. subst s2. discriminate H.
  - now apply String.app_inj in H.
Qed.

Lemma addTabIfNonEmpty_injective_witness :
  zoekt_cli.addTabIfNonEmpty "score 3" = String.append zoekt_cli.tab "score 3" /\
  "score 3"%string = "score 3"%string.
Proof.
  split; [reflexivity |].
  apply (addTabIfNonEmpty_injective "score 3" "score 3"). reflexivity.
Defined.

(** ** [displayMatches] *)

Lemma displayFile_some (q : zoekt_cli.QueryCase) (withRepo list_ : bool)
    (f : zoekt_cli.FileMatch) :
  exists out, zoekt_cli.displayFile q withRepo list_ f = Some out.
Proof.
  unfold zoekt_cli.displayFile. destruct list_; [eexists; reflexivity |].
  rewrite splitAtIndex_take_drop by (unfold zoekt_cli.lineMatchesPerFile; lia).
  eexists. reflexivity.
Qed.

Lemma displayFiles_some (q : zoekt_cli.QueryCase) (withRepo list_ : bool)
    (files : list zoekt_cli.FileMatch) :
  exists out, zoekt_cli.displayFiles q withRepo list_ files = Some out.
Proof.
  induction files as [| f rest [outs IH]]; [eexists; reflexivity |].
  destruct (displayFile_some q withRepo list_ f) as [out Hf].
  cbn [zoekt_cli.displayFiles]. rewrite Hf, IH. eexists. reflexivity.
Qed.

(** X4. [displayMatches] never panics: both calls of [splitAtIndex] pass a
    constant that is not negative, so for every list of file matches,
    query case and pair of flags the function runs to its end. *)
Theorem displayMatches_never_panics
    (files : list zoekt_cli.FileMatch) (q : zoekt_cli.QueryCase)
    (withRepo list_ : bool) :
  exists out : list string,
    zoekt_cli.displayMatches files q withRepo list_ = Some out.
Proof.
  unfold zoekt_cli.displayMatches.
  rewrite splitAtIndex_take_drop by (unfold zoekt_cli.fileMatchesPerSearch; lia).
  cbn [mbind option_bind].
  destruct (displayFiles_some q withRepo list_
              (take (Z.to_nat zoekt_cli.fileMatchesPerSearch) files))
    as [body Hb].
  rewrite Hb. eexists. reflexivity.
Qed.

(** X5. Only the first six file matches and the number of file matches
    reach the output: two lists with the same first six entries and the
    same length are displayed alike. *)
Theorem displayMatches_first_six
    (files files' : list zoekt_cli.FileMatch) (q : zoekt_cli.QueryCase)
    (withRepo list_ : bool) :
  take 6 files = take 6 files' ->
  length files = length files' ->
  zoekt_cli.displayMatches files q withRepo list_ =
  zoekt_cli.displayMatches files' q withRepo list_.
Proof.
  intros Htake Hlen. unfold zoekt_cli.displayMatches.
  rewrite !splitAtIndex_take_drop
    by (unfold zoekt_cli.fileMatchesPerSearch; lia).
  cbn [mbind option_bind].
  change (Z.to_nat zoekt_cli.fileMatchesPerSearch) with 6%nat.
  rewrite Htake. unfold zoekt_main.len.
  rewrite !length_drop, Hlen. reflexivity.
Qed.

Lemma displayMatches_first_six_witness :
  zoekt_cli.displayMatches
    (replicate 6 (zoekt_cli.mkFileMatch "r" "a.go" "" [])
     ++ [zoekt_cli.mkFileMatch "r" "b.go" "" []])
    (zoekt_cli.mkQueryCase "q" []) true false =
  zoekt_cli.displayMatches
    (replicate 6 (zoekt_cli.mkFileMatch "r" "a.go" "" [])
     ++ [zoekt_cli.mkFileMatch "other" "c.go" "dbg"
           [zoekt_cli.mkLineMatch 4 "x" ""]])
    (zoekt_cli.mkQueryCase "q" []) true false.
Proof.
  apply displayMatches_first_six; reflexivity.
Defined.

Lemma displayFiles_Forall2 (R : zoekt_cli.FileMatch -> zoekt_cli.FileMatch -> Prop)
    (q : zoekt_cli.QueryCase) (withRepo list_ : bool) :
  (forall f g, R f g ->
     zoekt_cli.displayFile q withRepo list_ f =
     zoekt_cli.displayFile q withRepo list_ g) ->
  forall files files', Forall2 R files files' ->
    zoekt_cli.displayFiles q withRepo list_ files =
    zoekt_cli.displayFiles q withRepo list_ files'.
Proof.
  intros HR files files' H.
  induction H as [| f g fs gs Hfg _ IH]; [reflexivity |].
  cbn [zoekt_cli.displayFiles]. rewrite (HR f g Hfg), IH. reflexivity.
Qed.

Lemma displayMatches_Forall2 (R : zoekt_cli.FileMatch -> zoekt_cli.FileMatch -> Prop)
    (q : zoekt_cli.QueryCase) (withRepo list_ : bool) :
  (forall f g, R f g ->
     zoekt_cli.displayFile q withRepo list_ f =
     zoekt_cli.displayFile q withRepo list_ g) ->
  forall files files', Forall2 R files files' ->
    zoekt_cli.displayMatches files q withRepo list_ =
    zoekt_cli.displayMatches files' q withRepo list_.
Proof.
  intros HR files files' H. unfold zoekt_cli.displayMatches.
  rewrite !splitAtIndex_take_drop
    by (unfold zoekt_cli.fileMatchesPerSearch; lia).
  cbn [mbind option_bind].
  rewrite (displayFiles_Forall2 R q withRepo list_ HR _ _
             (Forall2_take _ _ _ _ H)).
  unfold zoekt_main.len. rewrite !length_drop, (Forall2_length _ _ _ H).
  reflexivity.
Qed.

(** X6. With the flag [list] set, the line matches of the files do not
    reach the output: two lists of file matches that agree, entry by
    entry, on repository, file name and debug text are displayed alike. *)
Theorem displayMatches_list_ignores_lines
    (files files' : list zoekt_cli.FileMatch) (q : zoekt_cli.QueryCase)
    (withRepo : bool) :
  Forall2 (fun f g =>
             zoekt_cli.Repository f = zoekt_cli.Repository g /\
             zoekt_cli.FileName f = zoekt_cli.FileName g /\
             zoekt_cli.Debug f = zoekt_cli.Debug g) files files' ->
  zoekt_cli.displayMatches files q withRepo true =
  zoekt_cli.displayMatches files' q withRepo true.
Proof.
  apply displayMatches_Forall2. intros f g (Hr & Hn & Hd).
  unfold zoekt_cli.displayFile. rewrite Hr, Hn, Hd. reflexivity.
Qed.

Lemma displayMatches_list_ignores_lines_witness :
  zoekt_cli.displayMatches
    [zoekt_cli.mkFileMatch "r" "a.go" "d"
       [zoekt_cli.mkLineMatch 1 "x" ""; zoekt_cli.mkLineMatch 2 "y" "s"]]
    (zoekt_cli.mkQueryCase "q" ["a.go"%string]) true true =
  zoekt_cli.displayMatches
    [zoekt_cli.mkFileMatch "r" "a.go" "d" []]
    (zoekt_cli.mkQueryCase "q" ["a.go"%string]) true true.
Proof.
  apply displayMatches_list_ignores_lines.
  repeat constructor.
Defined.

(** X7. Of the line matches of a file only the first three and their
    number reach the output: two lists of file matches that agree, entry
    by entry, on repository, file name, debug text, the first three line
    matches and the number of line matches are displayed alike. *)
Theorem displayMatches_first_three_lines
    (files files' : list zoekt_cli.FileMatch) (q : zoekt_cli.QueryCase)
    (withRepo list_ : bool) :
  Forall2 (fun f g =>
             zoekt_cli.Repository f = zoekt_cli.Repository g /\
             zoekt_cli.FileName f = zoekt_cli.FileName g /\
             zoekt_cli.Debug f = zoekt_cli.Debug g /\
             take 3 (zoekt_cli.LineMatches f) = take 3 (zoekt_cli.LineMatches g) /\
             length (zoekt_cli.LineMatches f) = length (zoekt_cli.LineMatches g))
    files files' ->
  zoekt_cli.displayMatches files q withRepo list_ =
  zoekt_cli.displayMatches files' q withRepo list_.
Proof.
  apply displayMatches_Forall2. intros f g (Hr & Hn & Hd & Ht & Hl).
  unfold zoekt_cli.displayFile. rewrite Hr, Hn, Hd.
  destruct list_; [reflexivity |].
  rewrite !splitAtIndex_take_drop
    by (unfold zoekt_cli.lineMatchesPerFile; lia).
  cbn [mbind option_bind].
  change (Z.to_nat zoekt_cli.lineMatchesPerFile) with 3%nat.
  rewrite Ht. unfold zoekt_main.len. rewrite !length_drop, Hl. reflexivity.
Qed.

Lemma displayMatches_first_three_lines_witness :
  zoekt_cli.displayMatches
    [zoekt_cli.mkFileMatch "r" "a.go" ""
       [zoekt_cli.mkLineMatch 1 "a" ""; zoekt_cli.mkLineMatch 2 "b" "";
        zoekt_cli.mkLineMatch 3 "c" ""; zoekt_cli.mkLineMatch 9 "d" ""]]
    (zoekt_cli.mkQueryCase "q" []) false false =
  zoekt_cli.displayMatches
    [zoekt_cli.mkFileMatch "r" "a.go" ""
       [zoekt_cli.mkLineMatch 1 "a" ""; zoekt_cli.mkLineMatch 2 "b" "";
        zoekt_cli.mkLineMatch 3 "c" ""; zoekt_cli.mkLineMatch 70 "zz" "s"]]
    (zoekt_cli.mkQueryCase "q" []) false false.
Proof.
  apply displayMatches_first_three_lines.
  repeat constructor.
Defined.

Lemma displayFile_length (q : zoekt_cli.QueryCase) (withRepo list_ : bool)
    (f : zoekt_cli.FileMatch) (out : list string) :
  zoekt_cli.displayFile q withRepo list_ f = Some out -> (length out <= 7)%nat.
Proof.
  unfold zoekt_cli.displayFile.
  destruct (zoekt_cli.slices_Contains _ _); destruct list_;
    try (intros H; injection H as <-; cbn; lia);
    rewrite splitAtIndex_take_drop
      by (unfold zoekt_cli.lineMatchesPerFile; lia);
    cbn [mbind option_bind];
    change (Z.to_nat zoekt_cli.lineMatchesPerFile) with 3%nat;
    intros H; injection H as <-;
    destruct (0 <? _);
    cbn [length app];
    rewrite ?length_app, ?length_map, ?length_take; cbn [length]; lia.
Qed.

Lemma displayFiles_length (q : zoekt_cli.QueryCase) (withRepo list_ : bool)
    (files : list zoekt_cli.FileMatch) :
  forall out,
    zoekt_cli.displayFiles q withRepo list_ files = Some out ->
    (length out <= 7 * length files)%nat.
Proof.
  induction files as [| f rest IH]; intros out H.
  - injection H as <-. cbn. lia.
  - cbn [zoekt_cli.displayFiles] in H.
    destruct (zoekt_cli.displayFile q withRepo list_ f) as [o |] eqn:Ef;
      [| discriminate H].
    destruct (zoekt_cli.displayFiles q withRepo list_ rest) as [os |] eqn:Er;
      [| discriminate H].
    cbn in H. injection H as <-.
    apply displayFile_length in Ef. specialize (IH os eq_refl).
    rewrite length_app. cbn [length]. lia.
Qed.

(** X8. The output of [displayMatches] is bounded whatever the size of the
    result: at most 45 strings are written (a header, at most seven
    strings for each of at most six files, the line about hidden files
    and a final newline). *)
Theorem displayMatches_bounded_output
    (files : list zoekt_cli.FileMatch) (q : zoekt_cli.QueryCase)
    (withRepo list_ : bool) (out : list string) :
  zoekt_cli.displayMatches files q withRepo list_ = Some out ->
  (length out <= 45)%nat.
Proof.
  unfold zoekt_cli.displayMatches.
  rewrite splitAtIndex_take_drop
    by (unfold zoekt_cli.fileMatchesPerSearch; lia).
  cbn [mbind option_bind].
  change (Z.to_nat zoekt_cli.fileMatchesPerSearch) with 6%nat.
  destruct (zoekt_cli.displayFiles q withRepo list_ (take 6 files))
    as [body |] eqn:Eb; [| discriminate].
  apply displayFiles_length in Eb. rewrite length_take in Eb.
  cbn [mbind option_bind]. intros H. injection H as <-.
  destruct (0 <? zoekt_main.len (zoekt_cli.Files q));
    destruct (0 <? zoekt_main.len (drop 6 files));
    rewrite ?length_app; cbn [length]; lia.
Qed.

Lemma displayMatches_bounded_output_witness :
  zoekt_cli.displayMatches
    [zoekt_cli.mkFileMatch "r" "a.go" "" [zoekt_cli.mkLineMatch 1 "x" ""]]
    (zoekt_cli.mkQueryCase "q" []) false false =
    Some [String.append "a.go" zoekt_cli.nl; String.append "1:x" zoekt_cli.nl;
          zoekt_cli.nl] /\
  (length
     [String.append "a.go" zoekt_cli.nl; String.append "1:x" zoekt_cli.nl;
      zoekt_cli.nl] <= 45)%nat.
Proof.
  split; [reflexivity |].
  apply (displayMatches_bounded_output
           [zoekt_cli.mkFileMatch "r" "a.go" "" [zoekt_cli.mkLineMatch 1 "x" ""]]
           (zoekt_cli.mkQueryCase "q" []) false false).
  reflexivity.
Defined.

(** ** More on Extract and Inject *)

Lemma Itoa_negative (n : Z) :
  n < 0 -> strconv.Itoa n = String "-" (strconv.formatDecimal (- n)).
Proof.
  intros Hn. unfold strconv.Itoa.
  destruct (n <? 0) eqn:E; [reflexivity | apply Z.ltb_ge in E; lia].
Qed.

Lemma Itoa_nonneg_head (n : Z) :
  0 <= n ->
  exists c rest, strconv.Itoa n = String c rest /\ decimal.isDigit c = true.
Proof.
  intros Hn. rewrite Itoa_nonneg by exact Hn.
  destruct (Z.eq_dec n 0) as [-> | Hne].
  - exists "0"%char, EmptyString. split; reflexivity.
  - destruct (formatDecimal_head n ltac:(lia)) as (c & rest & E & Hc & _).
    exists c, rest. split; assumption.
Qed.

Lemma formatDecimal_inj (a b : Z) :
  0 <= a -> 0 <= b ->
  strconv.formatDecimal a = strconv.formatDecimal b -> a = b.
Proof.
  intros Ha Hb E.
  pose proof (parseDigits_formatDecimal a Ha) as Pa.
  pose proof (parseDigits_formatDecimal b Hb) as Pb.
  rewrite E in Pa. congruence.
Qed.

(** [strconv.Itoa] writes different strings for different integers. *)
Lemma Itoa_inj (n m : Z) : strconv.Itoa n = strconv.Itoa m -> n = m.
Proof.
  intros E.
  destruct (Z_lt_le_dec n 0) as [Hn | Hn]; destruct (Z_lt_le_dec m 0) as [Hm | Hm].
  - rewrite !Itoa_negative in E by assumption. injection E as E.
    apply formatDecimal_inj in E; lia.
  - rewrite Itoa_negative in E by assumption.
    destruct (Itoa_nonneg_head m Hm) as (c & rest & Em & Hc).
    rewrite Em in E. injection E as <- _. discriminate Hc.
  - rewrite (Itoa_negative m) in E by assumption.
    destruct (Itoa_nonneg_head n Hn) as (c & rest & En & Hc).
    rewrite En in E. injection E as -> _. discriminate Hc.
  - rewrite !Itoa_nonneg in E by assumption.
    apply formatDecimal_inj in E; assumption.
Qed.

(** No integer is written as the sentinel. *)
Lemma Itoa_never_sentinel (n : Z) :
  strconv.Itoa n <> Propagator.headerValueNoTenant.
Proof.
  intros E. destruct (Z_lt_le_dec n 0) as [Hn | Hn].
  - rewrite Itoa_negative in E by assumption. discriminate E.
  - destruct (Itoa_nonneg_head n Hn) as (c & rest & En & Hc).
    rewrite En in E. injection E as -> _. discriminate Hc.
Qed.

Lemma singleton_value_inj (k : string) (a b : list string) :
  ({[ k := a ]} : metadata.MD) = {[ k := b ]} -> a = b.
Proof.
  intros H. apply (f_equal (fun m : metadata.MD => m !! k)) in H.
  rewrite !lookup_singleton_eq in H. now injection H.
Qed.

(** X9. Extract keeps tenants apart: when two contexts give the same
    metadata and one of them carries a tenant, the other carries the same
    tenant; in particular no tenant, whatever its number, is written as
    the sentinel of a context without tenant. *)
Theorem extract_separates_tenants
    (ctx1 ctx2 : tenanttype.Ctx) (t : tenanttype.Tenant) :
  Propagator.FromContext ctx1 = Propagator.FromContext ctx2 ->
  tenanttype.FromContext ctx1 = Ok t ->
  tenanttype.FromContext ctx2 = Ok t.
Proof.
  intros Hmd H1. rewrite (FromContext_tenant ctx1 t H1) in Hmd.
  destruct (tenanttype.FromContext ctx2) as [t2 | e] eqn:H2.
  - rewrite (FromContext_tenant ctx2 t2 H2) in Hmd.
    apply singleton_value_inj in Hmd. injection Hmd as Hmd.
    apply Itoa_inj in Hmd. destruct t, t2. cbn in Hmd. now subst.
  - rewrite (FromContext_no_tenant ctx2 e H2) in Hmd.
    apply singleton_value_inj in Hmd. injection Hmd as Hmd.
    now apply Itoa_never_sentinel in Hmd.
Qed.

Lemma extract_separates_tenants_witness :
  tenanttype.FromContext
    (tenanttype.WithTenant sample.callee7 (tenanttype.mkTenant 42)) =
  Ok (tenanttype.mkTenant 42).
Proof.
  apply (extract_separates_tenants sample.caller42
           (tenanttype.WithTenant sample.callee7 (tenanttype.mkTenant 42))
           (tenanttype.mkTenant 42)); reflexivity.
Defined.

(** X10. Sentinel symmetry: the metadata Extract produces for a context
    without tenant makes Inject return the callee's context as it is,
    with no error; a tenant the callee's context already carries stays
    attached. *)
Theorem extract_inject_no_tenant
    (ctx callee : tenanttype.Ctx) (e : error) :
  tenanttype.FromContext ctx = Err e ->
  Propagator.InjectContext callee (Propagator.FromContext ctx) = (callee, None).
Proof.
  intros H. rewrite (FromContext_no_tenant ctx e H).
  apply InjectContext_no_tenant. right.
  apply (rawValue_Get _ _ []). apply Get_singleton.
Qed.

Lemma extract_inject_no_tenant_witness :
  Propagator.InjectContext sample.callee7
    (Propagator.FromContext context.Background) = (sample.callee7, None) /\
  tenanttype.FromContext sample.callee7 = Ok (tenanttype.mkTenant 7).
Proof.
  split; [| reflexivity].
  apply (extract_inject_no_tenant context.Background sample.callee7 ErrNoTenant).
  reflexivity.
Defined.



(** X12. Inject changes the context in one way only: when it returns no
    error, the returned context is either the given one (first value
    empty or the sentinel) or the given one with the tenant attached that
    [Unmarshal] decoded from the first value under the header key. *)
Theorem inject_success_shape
    (ctx ctx' : tenanttype.Ctx) (md : metadata.MD) :
  Propagator.InjectContext ctx md = (ctx', None) ->
  (ctx' = ctx /\
   (Propagator.rawValue md = EmptyString \/
    Propagator.rawValue md = Propagator.headerValueNoTenant)) \/
  (exists t : tenanttype.Tenant,
     tenanttype.Unmarshal (Propagator.rawValue md) = Ok t /\
     ctx' = tenanttype.WithTenant ctx t /\
     tenanttype.FromContext ctx' = Ok t).
Proof.
  unfold Propagator.InjectContext.
  destruct (String.eqb (Propagator.rawValue md) "") eqn:E1.
  - cbn [orb]. intros H. injection H as <-. left.
    apply String.eqb_eq in E1. split; [reflexivity | now left].
  - destruct (String.eqb (Propagator.rawValue md)
                Propagator.headerValueNoTenant) eqn:E2; cbn [orb].
    + intros H. injection H as <-. left.
      apply String.eqb_eq in E2. split; [reflexivity | now right].
    + destruct (tenanttype.Unmarshal (Propagator.rawValue md)) as [t | e].
      * intros H. injection H as <-. right. exists t.
        repeat split; reflexivity.
      * cbn. discriminate.
Qed.

Lemma inject_success_shape_witness :
  (tenanttype.WithTenant sample.callee7 (tenanttype.mkTenant 42) = sample.callee7 /\
   (Propagator.rawValue {[ wire.storedKey := ["42"%string] ]} = EmptyString \/
    Propagator.rawValue {[ wire.storedKey := ["42"%string] ]} =
      Propagator.headerValueNoTenant)) \/
  (exists t : tenanttype.Tenant,
     tenanttype.Unmarshal
       (Propagator.rawValue {[ wire.storedKey := ["42"%string] ]}) = Ok t /\
     tenanttype.WithTenant sample.callee7 (tenanttype.mkTenant 42) =
       tenanttype.WithTenant sample.callee7 t /\
     tenanttype.FromContext
       (tenanttype.WithTenant sample.callee7 (tenanttype.mkTenant 42)) = Ok t).
Proof.
  apply (inject_success_shape sample.callee7
           (tenanttype.WithTenant sample.callee7 (tenanttype.mkTenant 42))
           {[ wire.storedKey := ["42"%string] ]}).
  vm_compute. reflexivity.
Defined.

Lemma string_length_append (s1 s2 : string) :
  String.length (String.append s1 s2) =
  (String.length s1 + String.length s2)%nat.
Proof.
  induction s1 as [| c s1 IH]; [reflexivity |].
  change (S (String.length (String.append s1 s2)) =
          S (String.length s1 + String.length s2)).
  now rewrite IH.
Qed.

(** A number below [10 ^ k] is written with at most [k] digits, and every
    number with at least one. *)
Lemma formatDecimal_length (k : nat) :
  forall u, 0 <= u < 10 ^ Z.of_nat (S k) ->
    (1 <= String.length (strconv.formatDecimal u) <= S k)%nat.
Proof.
  induction k as [| k IH]; intros u Hu.
  - change (10 ^ Z.of_nat 1) with 10 in Hu.
    rewrite formatDecimal_small by lia. cbn. lia.
  - destruct (Z_lt_le_dec u 10) as [Hlt | Hge].
    + rewrite formatDecimal_small by lia. cbn. lia.
    + rewrite formatDecimal_step by exact Hge.
      rewrite string_length_append. cbn [String.length].
      assert (Hq : 0 <= u / 10 < 10 ^ Z.of_nat (S k)).
      { split; [apply Z.div_pos; lia |].
        apply Z.div_lt_upper_bound; [lia |].
        replace (Z.of_nat (S (S k))) with (Z.succ (Z.of_nat (S k))) in Hu by lia.
        rewrite Z.pow_succ_r in Hu by lia. lia. }
      specialize (IH _ Hq). lia.
Qed.

(** X13. Size of the header value: for a context that carries a tenant
    whose number is positive and fits [int], the value Extract writes has
    at least one and at most 19 bytes. *)
Theorem extract_value_length
    (ctx : tenanttype.Ctx) (t : tenanttype.Tenant) :
  tenanttype.FromContext ctx = Ok t ->
  tenanttype.valid t ->
  exists v : string,
    metadata.Get (Propagator.FromContext ctx) Propagator.headerKeyTenantID = [v] /\
    (1 <= String.length v <= 19)%nat.
Proof.
  intros Hctx [Hlo Hhi]. exists (strconv.Itoa (tenanttype.ID t)).
  rewrite (FromContext_tenant ctx t Hctx). split; [apply Get_singleton |].
  rewrite Itoa_nonneg by lia.
  apply (formatDecimal_length 18).
  unfold tenanttype.maxInt in Hhi. split; [lia |].
  change (10 ^ Z.of_nat 19) with 10000000000000000000. lia.
Qed.

Lemma extract_value_length_witness :
  exists v : string,
    metadata.Get (Propagator.FromContext sample.caller42)
      Propagator.headerKeyTenantID = [v] /\
    (1 <= String.length v <= 19)%nat.
Proof.
  apply (extract_value_length sample.caller42 (tenanttype.mkTenant 42)).
  - reflexivity.
  - unfold tenanttype.valid, tenanttype.maxInt; simpl; lia.
Defined.

(** ** [loadShard] *)

Section LoadShardProperties.

Context {File IndexFile Searcher Repo Index Err : Type}.
Variable os_Open : string -> File + Err.
Variable NewIndexFile : File -> IndexFile + Err.
Variable NewSearcher : IndexFile -> Searcher + Err.
Variable errText : Err -> string.
Variable repoSyntax : Repo -> string.
Variable indexSyntax : Index -> string.

(** X14. [loadShard] closes the index file exactly when it fails after
    having made it: once [os.Open] and [NewIndexFile] have succeeded, a
    failing run closes that index file once and does nothing else, and a
    successful run never closes anything. *)
Theorem loadShard_close_discipline
    (ReadMetadata : IndexFile -> (Repo * Index) + Err)
    (fn : string) (verbose : bool) (f : File) (iFile : IndexFile) :
  os_Open fn = inl f ->
  NewIndexFile f = inl iFile ->
  match shard.loadShard os_Open NewIndexFile NewSearcher ReadMetadata
          errText repoSyntax indexSyntax fn verbose with
  | (inl _, events) => forall x, ~ In (shard.Close x) events
  | (inr _, events) => events = [shard.Close iFile]
  end.
Proof.
  intros Ho Hi. unfold shard.loadShard. rewrite Ho, Hi.
  destruct (NewSearcher iFile) as [s | e]; [| reflexivity].
  destruct verbose.
  - destruct (ReadMetadata iFile) as [[repo index] | e]; [| reflexivity].
    intros x [H | [H | []]]; discriminate H.
  - intros x [].
Qed.

(** X15. Without [verbose], [loadShard] does not depend on
    [ReadMetadata] and writes nothing to the log. *)
Theorem loadShard_quiet
    (ReadMetadata ReadMetadata' : IndexFile -> (Repo * Index) + Err)
    (fn : string) :
  shard.loadShard os_Open NewIndexFile NewSearcher ReadMetadata
    errText repoSyntax indexSyntax fn false =
  shard.loadShard os_Open NewIndexFile NewSearcher ReadMetadata'
    errText repoSyntax indexSyntax fn false /\
  forall msg,
    ~ In (shard.Log msg)
        (snd (shard.loadShard os_Open NewIndexFile NewSearcher ReadMetadata
                errText repoSyntax indexSyntax fn false)).
Proof.
  unfold shard.loadShard. split.
  - destruct (os_Open fn) as [f | e]; [| reflexivity].
    destruct (NewIndexFile f) as [iFile | e]; [| reflexivity].
    destruct (NewSearcher iFile); reflexivity.
  - intros msg.
    destruct (os_Open fn) as [f | e]; [| intros []].
    destruct (NewIndexFile f) as [iFile | e]; [| intros []].
    destruct (NewSearcher iFile); cbn; [tauto |].
    intros [H | []]. discriminate H.
Qed.

End LoadShardProperties.

Lemma loadShard_close_discipline_witness :
  snd (shard.loadShard
         (fun fn : string => inl 3%nat : nat + string)
         (fun f : nat => inl (f + 1)%nat : nat + string)
         (fun i : nat => inr "bad index"%string : unit + string)
         (fun i : nat => inr "unused"%string : (unit * unit) + string)
         (fun e : string => e) (fun _ => "repo"%string) (fun _ => "index"%string)
         "a.zoekt" false) = [shard.Close 4%nat].
Proof.
  exact (loadShard_close_discipline
           (fun fn : string => inl 3%nat : nat + string)
           (fun f : nat => inl (f + 1)%nat : nat + string)
           (fun i : nat => inr "bad index"%string : unit + string)
           (fun e : string => e) (fun _ => "repo"%string) (fun _ => "index"%string)
           (fun i : nat => inr "unused"%string : (unit * unit) + string)
           "a.zoekt" false 3%nat 4%nat eq_refl eq_refl).
Defined.

(** ** [displayMatches]: marks and counts *)

Lemma slices_Contains_In (l : list string) (x : string) :
  zoekt_cli.slices_Contains l x = true <-> In x l.
Proof.
  unfold zoekt_cli.slices_Contains. rewrite existsb_exists. split.
  - intros (y & Hy & E). apply String.eqb_eq in E. now subst.
  - intros H. exists x. split; [exact H | apply String.eqb_refl].
Qed.

Lemma line_is_not_mark (s : string) :
  String.append s zoekt_cli.nl <> "*** "%string.
Proof.
  unfold zoekt_cli.nl.
  destruct s as [| c1 [| c2 [| c3 [| c4 [| c5 s]]]]]; intros H;
    cbv [String.append] in H; fold String.append in H;
    discriminate H.
Qed.

(** X16. Expected files are marked, and only they: the first string
    written for a file is the mark ["*** "] exactly when the name of the
    file is among the files the query case expects. *)
Theorem displayFile_marks_expected
    (q : zoekt_cli.QueryCase) (withRepo list_ : bool)
    (f : zoekt_cli.FileMatch) (out : list string) :
  zoekt_cli.displayFile q withRepo list_ f = Some out ->
  (In (zoekt_cli.FileName f) (zoekt_cli.Files q) <->
   head out = Some "*** "%string).
Proof.
  intros H. rewrite <- slices_Contains_In.
  unfold zoekt_cli.displayFile in H.
  destruct (zoekt_cli.slices_Contains (zoekt_cli.Files q) (zoekt_cli.FileName f)).
  - assert (Hh : head out = Some "*** "%string).
    { destruct list_; [now injection H as <- |].
      rewrite splitAtIndex_take_drop in H
        by (unfold zoekt_cli.lineMatchesPerFile; lia).
      cbn [mbind option_bind] in H. now injection H as <-. }
    tauto.
  - assert (Hh : head out <> Some "*** "%string).
    { assert (Hout : exists name rest,
                 out = String.append name zoekt_cli.nl :: rest).
      { destruct list_.
        - injection H as <-. cbn [app]. rewrite <- !append_assoc. eauto.
        - rewrite splitAtIndex_take_drop in H
            by (unfold zoekt_cli.lineMatchesPerFile; lia).
          cbn [mbind option_bind] in H. injection H as <-.
          cbn [app]. rewrite <- !append_assoc. eauto. }
      destruct Hout as (name & rest & ->). cbn [head].
      intros E. injection E as E. exact (line_is_not_mark _ E). }
    split; [discriminate | intros E; contradiction].
Qed.

Lemma displayFile_marks_expected_witness :
  In "a.go"%string ["b.go"%string; "a.go"%string] <->
  head ["*** "%string; String.append "r/a.go" zoekt_cli.nl] = Some "*** "%string.
Proof.
  apply (displayFile_marks_expected
           (zoekt_cli.mkQueryCase "q" ["b.go"%string; "a.go"%string])
           true true (zoekt_cli.mkFileMatch "r" "a.go" "" [])).
  reflexivity.
Defined.

(** X17. The hidden files are counted right: for more than six file
    matches [displayMatches] writes, after the output for the first six
    and before the final newline if there is one, the line
    ["hidden N more file matches"] with [N] the number of file matches
    less six. *)
Theorem displayMatches_hidden_files
    (files : list zoekt_cli.FileMatch) (q : zoekt_cli.QueryCase)
    (withRepo list_ : bool) :
  6 < zoekt_main.len files ->
  exists pre body post : list string,
    zoekt_cli.displayFiles q withRepo list_ (take 6 files) = Some body /\
    zoekt_cli.displayMatches files q withRepo list_ =
      Some (pre ++ body
            ++ [zoekt_cli.hiddenOutput (zoekt_main.len files - 6) "file"]
            ++ post) /\
    (pre = [] \/ exists header, pre = [header]) /\
    (post = [] \/ post = [zoekt_cli.nl]).
Proof.
  intros Hlen. unfold zoekt_cli.displayMatches.
  rewrite splitAtIndex_take_drop
    by (unfold zoekt_cli.fileMatchesPerSearch; lia).
  cbn [mbind option_bind].
  change (Z.to_nat zoekt_cli.fileMatchesPerSearch) with 6%nat.
  destruct (displayFiles_some q withRepo list_ (take 6 files)) as [body Hb].
  rewrite Hb. cbn [mbind option_bind].
  assert (Hd : zoekt_main.len (drop 6 files) = zoekt_main.len files - 6).
  { unfold zoekt_main.len in *. rewrite length_drop. lia. }
  rewrite Hd.
  destruct (0 <? zoekt_main.len files - 6) eqn:E; [| apply Z.ltb_ge in E; lia].
  destruct (0 <? zoekt_main.len (zoekt_cli.Files q));
    eexists _, body, _; (split; [reflexivity |]); (split; [reflexivity |]);
    split; eauto.
Qed.

Lemma displayMatches_hidden_files_witness :
  6 < zoekt_main.len (replicate 8 (zoekt_cli.mkFileMatch "r" "a.go" "" [])) /\
  exists pre body post : list string,
    zoekt_cli.displayFiles (zoekt_cli.mkQueryCase "q" []) false true
      (take 6 (replicate 8 (zoekt_cli.mkFileMatch "r" "a.go" "" []))) =
      Some body /\
    zoekt_cli.displayMatches
      (replicate 8 (zoekt_cli.mkFileMatch "r" "a.go" "" []))
      (zoekt_cli.mkQueryCase "q" []) false true =
      Some (pre ++ body
            ++ [zoekt_cli.hiddenOutput
                  (zoekt_main.len
                     (replicate 8 (zoekt_cli.mkFileMatch "r" "a.go" "" [])) - 6)
                  "file"]
            ++ post) /\
    (pre = [] \/ exists header, pre = [header]) /\
    (post = [] \/ post = [zoekt_cli.nl]).
Proof.
  assert (H : 6 < zoekt_main.len
                    (replicate 8 (zoekt_cli.mkFileMatch "r" "a.go" "" [])))
    by (vm_compute; reflexivity).
  split; [exact H |].
  exact (displayMatches_hidden_files _ (zoekt_cli.mkQueryCase "q" [])
           false true H).
Defined.
